(** * AquaData Pro: the calculation core, embedded and verified

    Source files covered:
    - [aquadata_app.py]: [calcular_ahorro], [obtener_estado_camaron],
      [obtener_temp_real];
    - [camaron.py]: [calcular_alimentacion_inteligente] and the simulated call
      at the end of the script.

    Numbers.  The Python code computes on [float] (and on [int] literals that
    are promoted to [float]).  The specification reads these values as real
    numbers, and so does this development: a Python number is the rational
    it denotes ([Q], exact arithmetic), a literal such as [0.03] is the
    rational [3/100].  Rounding and overflow of the binary64 format are
    outside this model.

    Exceptions.  Python operations that can raise are functions into the
    error monad [py] (ExtLib's [sum] monad, [inl] an exception, [inr] a
    value); [try ... except Exception] is a case analysis on that sum. *)

From Stdlib Require Import QArith Qminmax Lqa ZArith Lia String List Bool.
From ExtLib Require Import Structures.Monad Structures.MonadExc.
From ExtLib Require Import Data.Monads.EitherMonad.
Import ListNotations.
Import MonadNotation.
Local Open Scope monad_scope.
Local Open Scope Q_scope.

(** ** The fragment of the Python runtime the program uses *)

Module Py.

(** The exceptions the program can meet; all of them are subclasses of
    Python's [Exception]. *)
Inductive exn : Type :=
| ZeroDivisionError
| KeyError
| IndexError
| TypeError
| ConnectionError
| JSONDecodeError
| OtherException (name : string).

(** A computation that returns an [A] or raises. *)
Definition py (A : Type) : Type := sum exn A.

#[global] Instance Monad_py : Monad py := Monad_either exn.
#[global] Instance Exception_py : MonadExc exn py := Exception_either exn.

(** [x < y], [x > y], [x <= y] on numbers. *)
Definition ltb (x y : Q) : bool :=
  match x ?= y with Lt => true | _ => false end.

Definition gtb (x y : Q) : bool := ltb y x.

Definition leb (x y : Q) : bool :=
  match x ?= y with Gt => false | _ => true end.

(** The builtin [max(a, b)]: it keeps the first argument unless the second
    one is strictly greater. *)
Definition max (a b : Q) : Q := if gtb b a then b else a.

(** True division [x / y]: raises [ZeroDivisionError] on a zero divisor. *)
Definition truediv (x y : Q) : py Q :=
  if Qeq_bool y 0 then raise ZeroDivisionError else ret (x / y).

(** The values a decoded JSON document is made of.  A [dict] is kept as
    its list of items; the keys of a JSON object are strings. *)
#[local] Unset Elimination Schemes.
Inductive value : Type :=
| VNone
| VBool (b : bool)
| VInt (z : Z)
| VFloat (q : Q)
| VStr (s : string)
| VList (items : list value)
| VDict (items : list (string * value)).
#[local] Set Elimination Schemes.

(** Python's index arithmetic for a sequence of length [n]: a negative
    index counts from the end, anything outside [0, n) is [IndexError]. *)
Definition index (n : nat) (i : Z) : py nat :=
  let j := if (i <? 0)%Z then (i + Z.of_nat n)%Z else i in
  if ((0 <=? j) && (j <? Z.of_nat n))%Z then ret (Z.to_nat j)
  else raise IndexError.

(** [v[k]] for a string key [k]: only a [dict] accepts it. *)
Definition getitem_str (v : value) (k : string) : py value :=
  match v with
  | VDict items =>
      match find (fun kv => String.eqb (fst kv) k) items with
      | Some kv => ret (snd kv)
      | None => raise KeyError
      end
  | _ => raise TypeError
  end.

(** [v[i]] for an integer [i]: a list or a string is indexed, a [dict]
    has no integer key, every other value is not subscriptable. *)
Definition getitem_int (v : value) (i : Z) : py value :=
  match v with
  | VList items =>
      j <- index (List.length items) i ;;
      match nth_error items j with
      | Some x => ret x
      | None => raise IndexError
      end
  | VStr s =>
      j <- index (String.length s) i ;;
      match String.get j s with
      | Some c => ret (VStr (String c EmptyString))
      | None => raise IndexError
      end
  | VDict _ => raise KeyError
  | _ => raise TypeError
  end.

End Py.

Import Py.

(** ** [aquadata_app.py]: the business logic of the dashboard *)

Module AquaDataApp.

(** [calcular_ahorro(temp_agua, biomasa_kg, precio_saco)]: returns the
    tuple [(alimento_necesario_kg, ahorro, tasa)]. *)
Definition calcular_ahorro (temp_agua biomasa_kg precio_saco : Q)
  : py (Q * Q * Q) :=
  let tasa_optima := 0.03 * (1 - 0.01 * (temp_agua - 28) ^ 2) in
  let tasa := Py.max 0.005 tasa_optima in
  let alimento_necesario_kg := biomasa_kg * tasa in
  sacos_ciego <- truediv (biomasa_kg * 0.03) 25 ;;
  let gasto_ciego := sacos_ciego * precio_saco in
  sacos_optimo <- truediv alimento_necesario_kg 25 ;;
  let costo_optimo := sacos_optimo * precio_saco in
  let ahorro := gasto_ciego - costo_optimo in
  ret (alimento_necesario_kg, ahorro, tasa).

(** The tuple [(codigo, color, emoji, titulo, descripcion)] handed to the
    user interface. *)
Definition estado : Type := (string * string * string * string * string)%type.

Local Open Scope string_scope.

(** [obtener_estado_camaron(temp, ph, oxigeno)]. *)
Definition obtener_estado_camaron (temp ph oxigeno : Q) : estado :=
  if ltb temp 24 || gtb temp 30 then
    ("cold", "#3b82f6", "🥶", "Temperatura Crítica", "Riesgo térmico")
  else if ltb ph 7.5 || gtb ph 8.5 then
    ("stressed", "#f59e0b", "😰", "Estresado", "pH desequilibrado")
  else if ltb oxigeno 4 then
    ("suffocating", "#ef4444", "😵", "Hipoxia", "Oxígeno bajo")
  else
    ("healthy", "#10b981", "🦐", "Saludable", "Condiciones óptimas").

(** [SECTORES]: the six coastal sites, each with its [(lat, lon)]. *)
Definition SECTORES : list (string * (Q * Q)) :=
  [ ("Isla Puná (Golfo)", (-2.68, -80.00));
    ("Naranjal (Estero)", (-2.76, -79.60));
    ("Churute (Interior)", (-2.31, -79.66));
    ("Playas (Mar Abierto)", (-2.65, -80.45));
    ("Puerto Bolívar (El Oro)", (-3.27, -80.03));
    ("Golfo de Guayaquil (Centro)", (-2.75, -80.50)) ].

Section Weather.

(** The outside world of [obtener_temp_real]: how an f-string prints a
    coordinate; [requests.get], which answers or raises (no connection, a
    timeout); the [json()] method of the answer, which decodes its body or
    raises (a body that is not JSON). *)
Variable str : Q -> string.
Variable Response : Type.
Variable requests_get : string -> py Response.
Variable json : Response -> py value.

Definition URL (lat lon : Q) : string :=
  "https://marine-api.open-meteo.com/v1/marine?latitude=" ++ str lat
   ++ "&longitude=" ++ str lon
   ++ "&daily=sst_max&timezone=America%2FGuayaquil&past_days=7&forecast_days=1".

(** The subscript expression [respuesta['daily']['sst_max'][i]]. *)
Definition sst_max_at (respuesta : value) (i : Z) : py value :=
  daily <- getitem_str respuesta "daily" ;;
  sst_max <- getitem_str daily "sst_max" ;;
  getitem_int sst_max i.

(** The body of the [try] block. *)
Definition intento (lat lon : Q) : py (value * value * bool) :=
  r <- requests_get (URL lat lon) ;;
  respuesta <- json r ;;
  temp_hoy <- sst_max_at respuesta (-2) ;;
  temp_manana <- sst_max_at respuesta (-1) ;;
  ret (temp_hoy, temp_manana, false).

(** [obtener_temp_real(lat, lon)]: the [try] block under its
    [except Exception] handler. *)
Definition obtener_temp_real (lat lon : Q) : py (value * value * bool) :=
  catch (intento lat lon)
        (fun e => ret (VFloat 26.0, VFloat 26.5, true)).

End Weather.

End AquaDataApp.

(** ** [camaron.py]: the stepped model and its printed report *)

Module Camaron.

(** The local variables of [calcular_alimentacion_inteligente] once its
    computations (sections 1 to 3 of the function) are done. *)
Record locals : Type := {
  tasa : Q;
  estado : string;
  alimento_necesario_kg : Q;
  sacos_necesarios : Q;
  costo_dia : Q;
  gasto_ciego : Q;
  ahorro : Q
}.

Definition calculos (temp_agua biomasa_kg precio_saco : Q) : py locals :=
  let '(tasa, estado) :=
    if gtb temp_agua 26 then (0.03, "🟢 Óptimo"%string)
    else if leb 24 temp_agua && leb temp_agua 26 then (0.02, "🟡 Precaución"%string)
    else (0.005, "🔴 Crítico (Frío)"%string) in
  let alimento_necesario_kg := biomasa_kg * tasa in
  sacos_necesarios <- truediv alimento_necesario_kg 25 ;;
  let costo_dia := sacos_necesarios * precio_saco in
  sacos_ciego <- truediv (biomasa_kg * 0.03) 25 ;;
  let gasto_ciego := sacos_ciego * precio_saco in
  let ahorro := gasto_ciego - costo_dia in
  ret {| tasa := tasa; estado := estado;
         alimento_necesario_kg := alimento_necesario_kg;
         sacos_necesarios := sacos_necesarios;
         costo_dia := costo_dia;
         gasto_ciego := gasto_ciego;
         ahorro := ahorro |}.

(** The default value of the parameter [precio_saco]. *)
Definition precio_saco_default : Q := 25.00.

Section Reporte.

(** How an f-string prints a number: plain, with [:.1f], with [:.2f]. *)
Variables str fmt1 fmt2 : Q -> string.

Local Open Scope string_scope.

(** The lines the function prints (section 4 of the function). *)
Definition reporte (temp_agua biomasa_kg : Q) (l : locals) : list string :=
  [ "--- REPORTE DE ALIMENTACIÓN (" ++ estado l ++ ") ---";
    "🌡️  Temperatura del Agua: " ++ str temp_agua ++ "°C";
    "⚖️  Biomasa en piscina: " ++ str biomasa_kg ++ " kg";
    "---------------------------------------";
    "📦 Alimento Sugerido: " ++ fmt1 (alimento_necesario_kg l) ++ " kg ("
      ++ fmt1 (sacos_necesarios l) ++ " sacos)";
    "💵 Costo Hoy: $" ++ fmt2 (costo_dia l) ]
  ++ (if gtb (ahorro l) 0 then
        [ "✅ AHORRO GENERADO HOY: $" ++ fmt2 (ahorro l)
            ++ " (vs. Alimentación Estándar)";
          "💡 Consejo: El agua está fría. No desperdicies alimento." ]
      else
        [ "⚡ Producción al máximo. ¡A alimentar!" ]).

(** [calcular_alimentacion_inteligente(temp_agua, biomasa_kg, precio_saco)]:
    it returns [None]; what it yields is its standard output. *)
Definition calcular_alimentacion_inteligente
  (temp_agua biomasa_kg precio_saco : Q) : py (list string) :=
  l <- calculos temp_agua biomasa_kg precio_saco ;;
  ret (reporte temp_agua biomasa_kg l).

(** The call at the end of the script; [precio_saco] takes its default. *)
Definition simulacion : py (list string) :=
  calcular_alimentacion_inteligente 23.0 5000 precio_saco_default.

End Reporte.

End Camaron.

(** ** The specification's wording of the two contracts *)

Module Spec.

Local Open Scope string_scope.



(** Continuous model: a downward parabola centered at 28 degrees, clamped
    at the floor of 0.5%. *)
Definition continuousRate (temp : Q) : Q :=
  Qmax 0.005 (0.03 * (1 - 0.01 * (temp - 28) ^ 2)).


(** The classifier's contract: a table of rules tried in order, the first
    rule whose condition holds gives the status, the last row is the
    default. *)
Inductive StatusCode : Type := cold | stressed | suffocating | healthy.

Record StatusResult : Type := {
  code : StatusCode;
  colorHex : string;
  emoji : string;
  title : string;
  description : string
}.

Definition below (x y : Q) : bool := if Qlt_le_dec x y then true else false.

Definition rule : Type := ((Q -> Q -> Q -> bool) * StatusResult)%type.

Definition rules : list rule :=
  [ (fun temp pH oxygen => below temp 24 || below 30 temp,
     {| code := cold; colorHex := "#3b82f6"; emoji := "🥶";
        title := "Temperatura Crítica"; description := "Riesgo térmico" |});
    (fun temp pH oxygen => below pH 7.5 || below 8.5 pH,
     {| code := stressed; colorHex := "#f59e0b"; emoji := "😰";
        title := "Estresado"; description := "pH desequilibrado" |});
    (fun temp pH oxygen => below oxygen 4,
     {| code := suffocating; colorHex := "#ef4444"; emoji := "😵";
        title := "Hipoxia"; description := "Oxígeno bajo" |}) ].

Definition default : StatusResult :=
  {| code := healthy; colorHex := "#10b981"; emoji := "🦐";
     title := "Saludable"; description := "Condiciones óptimas" |}.

Fixpoint firstMatch (rs : list rule) (temp pH oxygen : Q) : StatusResult :=
  match rs with
  | [] => default
  | (condition, status) :: rest =>
      if condition temp pH oxygen then status
      else firstMatch rest temp pH oxygen
  end.

Definition classify (temperature pH dissolvedOxygen : Q) : StatusResult :=
  firstMatch rules temperature pH dissolvedOxygen.

Definition codeName (c : StatusCode) : string :=
  match c with
  | cold => "cold"
  | stressed => "stressed"
  | suffocating => "suffocating"
  | healthy => "healthy"
  end.

(** A [StatusResult] laid out as the tuple the code returns. *)
Definition asTuple (r : StatusResult)
  : string * string * string * string * string :=
  (codeName (code r), colorHex r, emoji r, title r, description r).

End Spec.

(** ** [aquadata_app.py]: the script that runs the dashboard *)

Module AquaDataScript.

Import AquaDataApp.

Local Open Scope string_scope.

(** A value used as a number: [int], [float] and [bool] are numbers; on any
    other value the comparison or the arithmetic raises [TypeError]. *)
Definition as_number (v : value) : py Q :=
  match v with
  | VInt z => ret (inject_Z z)
  | VFloat q => ret q
  | VBool b => ret (if b then 1 else 0)
  | _ => raise TypeError
  end.

(** [coordenadas = SECTORES[sector_nombre]], with its ['lat'] and ['lon']. *)
Definition coordenadas (sector_nombre : string) : py (Q * Q) :=
  match find (fun kv => String.eqb (fst kv) sector_nombre) SECTORES with
  | Some kv => ret (snd kv)
  | None => raise KeyError
  end.

(** The readings the script does not measure. *)
Definition ph_actual : Q := 7.8.
Definition ox_actual : Q := 5.2.

(** The first component of the tuple of [obtener_estado_camaron], as the
    script unpacks it. *)
Definition estado_codigo (e : estado) : string :=
  let '(codigo, _, _, _, _) := e in codigo.

(** The message boxes of the page. *)
Inductive widget : Type :=
| st_markdown (body : string)
| st_warning (body : string) (icon : option string)
| st_error (body : string).

(** The system alert: shown when the fetch fell back. *)
Definition alerta_sistema (api_error : bool) : list widget :=
  if api_error then
    [ st_warning "⚠️ ALERTA DE SISTEMA: El satélite NOAA no respondió. Usando datos de emergencia (26.0°C)." (Some "📡") ]
  else [].

Section Page.

(** How an f-string prints a number with [:.1f] and with [:.2f]. *)
Variables fmt1 fmt2 : Q -> string.

(** The panel of recommended actions. *)
Definition panel_soluciones (estado_codigo : string)
  (alimento_sugerido tasa_real : Q) : list widget :=
  if negb (String.eqb estado_codigo "healthy") then
    st_markdown "### 🛠️ Acciones Recomendadas"
    :: (if String.eqb estado_codigo "cold" then
          [ st_warning
              ("**Recomendación de Alimento:** Mantener **" ++ fmt1 alimento_sugerido
               ++ " kg** (Tasa del **" ++ fmt2 (tasa_real * 100)
               ++ "%**) | **Acción:** Asegurar que el fondo de la piscina esté limpio para evitar problemas con el frío y airear de forma intermitente.")
              None ]
        else if String.eqb estado_codigo "suffocating" then
          [ st_error "🚨 **PELIGRO CRÍTICO:** Encender todos los aireadores inmediatamente. Riesgo de mortalidad por Hipoxia. Revisar la biomasa." ]
        else if String.eqb estado_codigo "stressed" then
          [ st_error "❌ **Alerta de pH:** Monitorear el pH cada 3 horas. Suspender cualquier tipo de fertilización o encalado hasta estabilizar el pH." ]
        else [])
  else [].

(** What one run of the script computes and shows. *)
Record tablero : Type := {
  temp_actual : Q;
  temp_manana : Q;
  api_error : bool;
  estado_hoy : estado;
  alimento_sugerido : Q;
  ahorro_total : Q;
  tasa_real : Q;
  alertas : list widget;
  panel : list widget;
  delta_temp : Q;
  desc_manana : string;
  color_ahorro : string
}.

(** The outside world of the fetch, as in [AquaDataApp.obtener_temp_real]. *)
Variable str : Q -> string.
Variable Response : Type.
Variable requests_get : string -> py Response.
Variable json : Response -> py value.

(** Steps B and C of the script, the system alert, the panel of actions and
    the indicators; the inputs are the choices of the sidebar.  The widgets
    that only display (titles, the card, the chart, the status bar) are not
    part of the record. *)
Definition pipeline (sector_nombre : string)
  (biomasa_usuario precio_saco_usuario : Q) : py tablero :=
  lat_lon <- coordenadas sector_nombre ;;
  lecturas <- obtener_temp_real str Response requests_get json
                (fst lat_lon) (snd lat_lon) ;;
  let '(hoy, manana, api_error) := lecturas in
  temp_actual <- as_number hoy ;;
  let estado_hoy := obtener_estado_camaron temp_actual ph_actual ox_actual in
  ahorro <- calcular_ahorro temp_actual biomasa_usuario precio_saco_usuario ;;
  let '(alimento_sugerido, ahorro_total, tasa_real) := ahorro in
  let alertas := alerta_sistema api_error in
  let panel :=
    panel_soluciones (estado_codigo estado_hoy) alimento_sugerido tasa_real in
  temp_manana <- as_number manana ;;
  let delta_temp := temp_manana - temp_actual in
  let '(_, _, _, _, desc_manana) :=
    obtener_estado_camaron temp_manana ph_actual ox_actual in
  let color_ahorro := if gtb ahorro_total 0 then "normal" else "off" in
  ret {| temp_actual := temp_actual;
         temp_manana := temp_manana;
         api_error := api_error;
         estado_hoy := estado_hoy;
         alimento_sugerido := alimento_sugerido;
         ahorro_total := ahorro_total;
         tasa_real := tasa_real;
         alertas := alertas;
         panel := panel;
         delta_temp := delta_temp;
         desc_manana := desc_manana;
         color_ahorro := color_ahorro |}.

End Page.

End AquaDataScript.

Import AquaDataApp.

(** * Properties *)

(** ** Comparisons and [max] *)

Lemma lt_spec (x y : Q) : BoolSpec (x < y) (y <= x) (Py.ltb x y).
Proof.
  unfold Py.ltb. destruct (x ?= y) eqn:E; constructor.
  - apply Qeq_alt in E. rewrite E. apply Qle_refl.
  - now apply Qlt_alt.
  - apply Qlt_le_weak. now apply Qgt_alt.
Qed.

Lemma gt_spec (x y : Q) : BoolSpec (y < x) (x <= y) (Py.gtb x y).
Proof. unfold Py.gtb. apply lt_spec. Qed.

Lemma le_spec (x y : Q) : BoolSpec (x <= y) (y < x) (Py.leb x y).
Proof.
  unfold Py.leb. destruct (x ?= y) eqn:E; constructor.
  - apply Qeq_alt in E. rewrite E. apply Qle_refl.
  - apply Qlt_le_weak. now apply Qlt_alt.
  - now apply Qgt_alt.
Qed.

Lemma below_lt (x y : Q) : Spec.below x y = Py.ltb x y.
Proof.
  unfold Spec.below.
  destruct (Qlt_le_dec x y), (lt_spec x y); try reflexivity; lra.
Qed.

Lemma max_Qmax (a b : Q) : Py.max a b = Qmax a b.
Proof.
  unfold Py.max, gtb, ltb, Qmax, GenericMinMax.gmax.
  destruct (a ?= b); reflexivity.
Qed.

(** Case analysis on every comparison of the goal, each case with the
    order fact it stands for. *)
Ltac cases_on_comparisons :=
  repeat match goal with
  | |- context [Py.ltb ?x ?y] => destruct (lt_spec x y)
  | |- context [Py.gtb ?x ?y] => destruct (gt_spec x y)
  | |- context [Py.leb ?x ?y] => destruct (le_spec x y)
  end; cbn [orb andb].

(** ** The status classifier *)

(** C2. [obtener_estado_camaron] is an ordered decision list, the first
    matching rule wins: it is the specification's table read top down; it
    returns the cold tuple whenever temp < 24 or temp > 30, otherwise the
    stressed tuple whenever pH < 7.5 or pH > 8.5, otherwise the suffocating
    tuple whenever oxygen < 4, otherwise the healthy tuple; and
    classify(20, 9.0, 2.0) is cold although the pH and oxygen rules match
    too. *)
Theorem obtener_estado_camaron_first_match (temp ph oxigeno : Q) :
  obtener_estado_camaron temp ph oxigeno
  = Spec.asTuple (Spec.classify temp ph oxigeno)
  /\ (temp < 24 \/ 30 < temp ->
      obtener_estado_camaron temp ph oxigeno
      = ("cold", "#3b82f6", "🥶", "Temperatura Crítica", "Riesgo térmico")%string)
  /\ (~ (temp < 24 \/ 30 < temp) -> ph < 7.5 \/ 8.5 < ph ->
      obtener_estado_camaron temp ph oxigeno
      = ("stressed", "#f59e0b", "😰", "Estresado", "pH desequilibrado")%string)
  /\ (~ (temp < 24 \/ 30 < temp) -> ~ (ph < 7.5 \/ 8.5 < ph) -> oxigeno < 4 ->
      obtener_estado_camaron temp ph oxigeno
      = ("suffocating", "#ef4444", "😵", "Hipoxia", "Oxígeno bajo")%string)
  /\ (~ (temp < 24 \/ 30 < temp) -> ~ (ph < 7.5 \/ 8.5 < ph) -> ~ oxigeno < 4 ->
      obtener_estado_camaron temp ph oxigeno
      = ("healthy", "#10b981", "🦐", "Saludable", "Condiciones óptimas")%string)
  /\ obtener_estado_camaron 20 9.0 2.0
     = ("cold", "#3b82f6", "🥶", "Temperatura Crítica", "Riesgo térmico")%string
  /\ (9.0 < 7.5 \/ 8.5 < 9.0) /\ 2.0 < 4.
Proof.
  repeat apply conj.
  - unfold Spec.classify, Spec.rules, Spec.firstMatch, obtener_estado_camaron.
    rewrite !below_lt. unfold Py.gtb.
    destruct (Py.ltb temp 24 || Py.ltb 30 temp); [reflexivity |].
    destruct (Py.ltb ph 7.5 || Py.ltb 8.5 ph); [reflexivity |].
    destruct (Py.ltb oxigeno 4); reflexivity.
  - intros H. unfold obtener_estado_camaron.
    cases_on_comparisons; try reflexivity; lra.
  - intros Ht Hp. unfold obtener_estado_camaron.
    cases_on_comparisons; try reflexivity; lra.
  - intros Ht Hp Ho. unfold obtener_estado_camaron.
    cases_on_comparisons; try reflexivity; lra.
  - intros Ht Hp Ho. unfold obtener_estado_camaron.
    cases_on_comparisons; try reflexivity; lra.
  - reflexivity.
  - right. reflexivity.
  - reflexivity.
Qed.

Lemma obtener_estado_camaron_first_match_witness :
  obtener_estado_camaron 27 8.9 5.2
  = ("stressed", "#f59e0b", "😰", "Estresado", "pH desequilibrado")%string.
Proof.
  apply (proj1 (proj2 (proj2 (obtener_estado_camaron_first_match 27 8.9 5.2)))).
  - intros [H | H]; discriminate H.
  - right. reflexivity.
Defined.

(** C5. For every temperature in [24, 30], every pH in [7.5, 8.5] and every
    oxygen level of at least 4, [obtener_estado_camaron] returns the healthy
    status. *)
Theorem obtener_estado_camaron_healthy_range (temp ph oxigeno : Q) :
  24 <= temp <= 30 -> 7.5 <= ph <= 8.5 -> 4 <= oxigeno ->
  obtener_estado_camaron temp ph oxigeno
  = ("healthy", "#10b981", "🦐", "Saludable", "Condiciones óptimas")%string.
Proof.
  intros Ht Hp Ho. unfold obtener_estado_camaron.
  cases_on_comparisons; try reflexivity; lra.
Qed.

Lemma obtener_estado_camaron_healthy_range_witness :
  obtener_estado_camaron 27 8.0 5.2
  = ("healthy", "#10b981", "🦐", "Saludable", "Condiciones óptimas")%string.
Proof.
  apply obtener_estado_camaron_healthy_range.
  - split; discriminate.
  - split; discriminate.
  - discriminate.
Defined.

(** C10. [obtener_estado_camaron] returns healthy if and only if
    24 <= temp <= 30 and 7.5 <= pH <= 8.5 and oxygen >= 4; every risk
    comparison being strict, the boundary values temp = 24 or 30,
    pH = 7.5 or 8.5, oxygen = 4 are healthy. *)
Theorem obtener_estado_camaron_healthy_iff (temp ph oxigeno : Q) :
  (obtener_estado_camaron temp ph oxigeno
   = ("healthy", "#10b981", "🦐", "Saludable", "Condiciones óptimas")%string
   <-> 24 <= temp <= 30 /\ 7.5 <= ph <= 8.5 /\ 4 <= oxigeno)
  /\ ((temp == 24 \/ temp == 30) -> (ph == 7.5 \/ ph == 8.5) -> oxigeno == 4 ->
      obtener_estado_camaron temp ph oxigeno
      = ("healthy", "#10b981", "🦐", "Saludable", "Condiciones óptimas")%string).
Proof.
  repeat apply conj.
  - unfold obtener_estado_camaron.
    cases_on_comparisons; intros Heq; try discriminate Heq; lra.
  - intros (Ht & Hp & Ho). unfold obtener_estado_camaron.
    cases_on_comparisons; try reflexivity; lra.
  - intros Ht Hp Ho. unfold obtener_estado_camaron.
    cases_on_comparisons; try reflexivity; lra.
Qed.

Lemma obtener_estado_camaron_healthy_iff_witness :
  obtener_estado_camaron 24 8.5 4
  = ("healthy", "#10b981", "🦐", "Saludable", "Condiciones óptimas")%string
  /\ (24 <= 30 <= 30 /\ 7.5 <= 7.5 <= 8.5 /\ 4 <= 4).
Proof.
  split.
  - apply (proj2 (obtener_estado_camaron_healthy_iff 24 8.5 4)).
    + left. reflexivity.
    + right. reflexivity.
    + reflexivity.
  - apply (proj1 (obtener_estado_camaron_healthy_iff 30 7.5 4)).
    reflexivity.
Defined.

(** ** The continuous ration model *)

(** [calcular_ahorro] never raises (its only divisions are by the sack size
    25) and its tuple is made of the clamped parabola. *)
Lemma calcular_ahorro_eq (temp_agua biomasa_kg precio_saco : Q) :
  let tasa := Spec.continuousRate temp_agua in
  calcular_ahorro temp_agua biomasa_kg precio_saco
  = inr (biomasa_kg * tasa,
         (biomasa_kg * 0.03 / 25) * precio_saco
         - (biomasa_kg * tasa / 25) * precio_saco,
         tasa).
Proof.
  cbv zeta. unfold calcular_ahorro, Spec.continuousRate.
  rewrite max_Qmax. reflexivity.
Qed.




(** The savings are the product of the sack count of the whole biomass,
    the price, and the distance of the rate from the blind 3%. *)
Lemma ahorro_factored (biomasa_kg precio_saco tasa : Q) :
  (biomasa_kg * 0.03 / 25) * precio_saco - (biomasa_kg * tasa / 25) * precio_saco
  == (biomasa_kg * precio_saco) * ((0.03 - tasa) * (1 # 25)).
Proof. field. Qed.




(** The clamp at the extreme temperatures the specification names. *)
Example continuousRate_at_100 : Spec.continuousRate 100 = 0.005.
Proof. reflexivity. Qed.

Example continuousRate_at_minus_50 : Spec.continuousRate (-50) = 0.005.
Proof. reflexivity. Qed.

(** C6. At temperature 28 the rate is exactly 0.03, the vertex of the
    parabola, and the savings are exactly 0 whatever the pond;
    [calcular_ahorro(28, 5000, 25)] has a feed mass of exactly 150 and
    savings of exactly 0. *)
Theorem calcular_ahorro_vertex :
  (forall biomassKg sackPriceUsd : Q, exists feed savings rate,
     calcular_ahorro 28 biomassKg sackPriceUsd = inr (feed, savings, rate)
     /\ rate == 0.03 /\ savings == 0)
  /\ exists feed savings rate,
       calcular_ahorro 28 5000 25 = inr (feed, savings, rate)
       /\ rate == 0.03 /\ feed == 150 /\ savings == 0.
Proof.
  assert (Spec.continuousRate 28 == 0.03) as Hv by reflexivity.
  split.
  - intros b p. eexists _, _, _. split; [apply calcular_ahorro_eq |].
    split; [exact Hv |]. rewrite ahorro_factored, Hv. field.
  - eexists _, _, _. split; [apply calcular_ahorro_eq |].
    repeat apply conj; reflexivity.
Qed.


(** ** Totality of the core *)




(** ** The stepped ration model of [camaron.py] *)

Import Camaron.

(** C4. The stepped model feeds at 0.03 above 26 degrees, at 0.02 from 24 to
    26 degrees, at 0.005 otherwise, and the function prints the report of
    these values; the run of the script (temperature 23, biomass 5000, sack
    price 25) computes the rate 0.005, a feed mass of 25, a cost of 25, a
    blind cost of 150 and savings of 125. *)
Theorem calculos_stepped_model (temp_agua biomasa_kg precio_saco : Q) :
  (exists l,
     calculos temp_agua biomasa_kg precio_saco = inr l
     /\ (26 < temp_agua -> tasa l = 0.03)
     /\ (24 <= temp_agua <= 26 -> tasa l = 0.02)
     /\ (~ 26 < temp_agua -> ~ 24 <= temp_agua <= 26 -> tasa l = 0.005)
     /\ forall str fmt1 fmt2 : Q -> string,
          calcular_alimentacion_inteligente str fmt1 fmt2
            temp_agua biomasa_kg precio_saco
          = inr (reporte str fmt1 fmt2 temp_agua biomasa_kg l))
  /\ exists l,
       calculos 23.0 5000 precio_saco_default = inr l
       /\ tasa l = 0.005
       /\ alimento_necesario_kg l == 25.0
       /\ costo_dia l == 25.0
       /\ gasto_ciego l == 150.0
       /\ ahorro l == 125.0.
Proof.
  split.
  - unfold calcular_alimentacion_inteligente, calculos.
    cases_on_comparisons;
      (eexists; split; [reflexivity |]; cbn [tasa];
       repeat apply conj; try reflexivity; intros; try reflexivity; lra).
  - eexists. split; [reflexivity |]. cbn. repeat apply conj; reflexivity.
Qed.

Lemma calculos_stepped_model_witness :
  exists l, calculos 25 5000 25 = inr l /\ tasa l = 0.02.
Proof.
  destruct (calculos_stepped_model 25 5000 25)
    as [(l & Heq & _ & Hmid & _) _].
  exists l. split; [exact Heq |].
  apply Hmid. split; discriminate.
Defined.

(** What the script prints, the numbers left to the formatter. *)
Example simulacion_prints (str fmt1 fmt2 : Q -> string) :
  exists alimento sacos costo ahorro,
    alimento == 25 /\ sacos == 1 /\ costo == 25 /\ ahorro == 125 /\
    simulacion str fmt1 fmt2
    = inr [ "--- REPORTE DE ALIMENTACIÓN (🔴 Crítico (Frío)) ---";
            "🌡️  Temperatura del Agua: " ++ str 23.0 ++ "°C";
            "⚖️  Biomasa en piscina: " ++ str 5000 ++ " kg";
            "---------------------------------------";
            "📦 Alimento Sugerido: " ++ fmt1 alimento ++ " kg ("
              ++ fmt1 sacos ++ " sacos)";
            "💵 Costo Hoy: $" ++ fmt2 costo;
            "✅ AHORRO GENERADO HOY: $" ++ fmt2 ahorro
              ++ " (vs. Alimentación Estándar)";
            "💡 Consejo: El agua está fría. No desperdicies alimento."
          ]%string.
Proof.
  eexists _, _, _, _. repeat apply conj; [| | | | reflexivity]; reflexivity.
Qed.

(** ** The weather fetch and its fallback *)

(** The last two items of a list under Python's negative indices. *)
Lemma getitem_int_last_two (items : list value) (a b : value) :
  getitem_int (VList (items ++ [a; b])) (-2) = inr a
  /\ getitem_int (VList (items ++ [a; b])) (-1) = inr b.
Proof.
  unfold getitem_int, index. rewrite length_app. cbn [List.length].
  set (n := List.length items).
  assert ((-2 <? 0)%Z = true /\ (-1 <? 0)%Z = true) as [-> ->] by (split; reflexivity).
  assert (((0 <=? -2 + Z.of_nat (n + 2)) && (-2 + Z.of_nat (n + 2) <? Z.of_nat (n + 2)))%Z = true) as ->.
  { apply andb_true_intro. split; [apply Z.leb_le | apply Z.ltb_lt]; lia. }
  assert (((0 <=? -1 + Z.of_nat (n + 2)) && (-1 + Z.of_nat (n + 2) <? Z.of_nat (n + 2)))%Z = true) as ->.
  { apply andb_true_intro. split; [apply Z.leb_le | apply Z.ltb_lt]; lia. }
  cbn [bind ret Monad_py Monad_either].
  replace (Z.to_nat (-2 + Z.of_nat (n + 2))) with (n + 0)%nat by lia.
  replace (Z.to_nat (-1 + Z.of_nat (n + 2))) with (n + 1)%nat by lia.
  subst n. rewrite !nth_error_app2 by lia.
  replace (List.length items + 0 - List.length items)%nat with 0%nat by lia.
  replace (List.length items + 1 - List.length items)%nat with 1%nat by lia.
  split; reflexivity.
Qed.

(** C7. [obtener_temp_real] never propagates a failure: whenever the fetch
    raises (the request, the decoding of the body or the reading of the
    series), it returns exactly (26.0, 26.5, True); on success it returns
    the two fetched temperatures with the error flag False. *)
Theorem obtener_temp_real_fallback
  (str : Q -> string) (Response : Type)
  (requests_get : string -> py Response) (json : Response -> py value)
  (lat lon : Q) :
  let resultado := obtener_temp_real str Response requests_get json lat lon in
  (forall e,
     intento str Response requests_get json lat lon = inl e ->
     resultado = inr (VFloat 26.0, VFloat 26.5, true))
  /\ (forall e,
        requests_get (URL str lat lon) = inl e ->
        resultado = inr (VFloat 26.0, VFloat 26.5, true))
  /\ (forall r e,
        requests_get (URL str lat lon) = inr r ->
        json r = inl e ->
        resultado = inr (VFloat 26.0, VFloat 26.5, true))
  /\ (forall r respuesta e,
        requests_get (URL str lat lon) = inr r ->
        json r = inr respuesta ->
        sst_max_at respuesta (-2) = inl e \/ sst_max_at respuesta (-1) = inl e ->
        resultado = inr (VFloat 26.0, VFloat 26.5, true))
  /\ (forall r respuesta temp_hoy temp_manana,
        requests_get (URL str lat lon) = inr r ->
        json r = inr respuesta ->
        sst_max_at respuesta (-2) = inr temp_hoy ->
        sst_max_at respuesta (-1) = inr temp_manana ->
        resultado = inr (temp_hoy, temp_manana, false))
  /\ (exists t, resultado = inr t).
Proof.
  cbv zeta. unfold obtener_temp_real, intento. repeat apply conj.
  - intros e ->. reflexivity.
  - intros e ->. reflexivity.
  - intros r e -> Hjson. cbn. rewrite Hjson. reflexivity.
  - intros r respuesta e -> Hjson [H | H]; cbn -[sst_max_at]; rewrite Hjson;
      cbn -[sst_max_at]; rewrite H.
    + reflexivity.
    + destruct (sst_max_at respuesta (-2)); reflexivity.
  - intros r respuesta temp_hoy temp_manana -> Hjson Hhoy Hmanana.
    cbn -[sst_max_at]. rewrite Hjson.
    cbn -[sst_max_at]. rewrite Hhoy, Hmanana. reflexivity.
  - destruct (requests_get (URL str lat lon)) as [e | r]; cbn -[sst_max_at].
    + eexists. reflexivity.
    + destruct (json r) as [e | respuesta]; cbn -[sst_max_at].
      * eexists. reflexivity.
      * destruct (sst_max_at respuesta (-2)), (sst_max_at respuesta (-1));
          eexists; reflexivity.
Qed.

Lemma obtener_temp_real_fallback_witness :
  obtener_temp_real (fun _ => ""%string) string
    (fun _ => inl ConnectionError) (fun _ => inl JSONDecodeError)
    (-2.68) (-80.00)
  = inr (VFloat 26.0, VFloat 26.5, true)
  /\ obtener_temp_real (fun _ => ""%string) string
       (fun _ => inr "<html>"%string) (fun _ => inl JSONDecodeError)
       (-2.68) (-80.00)
     = inr (VFloat 26.0, VFloat 26.5, true)
  /\ obtener_temp_real (fun _ => ""%string) string
       (fun _ => inr "{}"%string)
       (fun _ => inr (VDict [("error"%string, VBool true)]))
       (-2.68) (-80.00)
     = inr (VFloat 26.0, VFloat 26.5, true)
  /\ obtener_temp_real (fun _ => ""%string) string
       (fun _ => inr "{}"%string)
       (fun _ => inr (VDict [("daily"%string,
                       VDict [("sst_max"%string,
                               VList [VFloat 25.4; VFloat 25.9; VFloat 26.3])])]))
       (-2.68) (-80.00)
     = inr (VFloat 25.9, VFloat 26.3, false).
Proof.
  repeat apply conj.
  - apply (proj1 (proj2 (obtener_temp_real_fallback _ _ _ _ _ _))
             ConnectionError).
    reflexivity.
  - eapply (proj1 (proj2 (proj2 (obtener_temp_real_fallback _ _ _ _ _ _)))).
    + reflexivity.
    + reflexivity.
  - eapply (proj1 (proj2 (proj2 (proj2
             (obtener_temp_real_fallback _ _ _ _ _ _)))) _ _ KeyError).
    + reflexivity.
    + reflexivity.
    + left. reflexivity.
  - eapply (proj1 (proj2 (proj2 (proj2 (proj2
             (obtener_temp_real_fallback _ _ _ _ _ _)))))).
    + reflexivity.
    + reflexivity.
    + reflexivity.
    + reflexivity.
Defined.

(** On a well-formed answer, whose [daily.sst_max] series has at least two
    readings, the result is the last two readings of the series. *)
Corollary obtener_temp_real_last_two
  (str : Q -> string) (Response : Type)
  (requests_get : string -> py Response) (json : Response -> py value)
  (lat lon : Q) (r : Response)
  (respuesta daily : value) (serie : list value) (hoy manana : value) :
  requests_get (URL str lat lon) = inr r ->
  json r = inr respuesta ->
  getitem_str respuesta "daily" = inr daily ->
  getitem_str daily "sst_max" = inr (VList (serie ++ [hoy; manana])) ->
  obtener_temp_real str Response requests_get json lat lon
  = inr (hoy, manana, false).
Proof.
  intros Hget Hjson Hdaily Hsst.
  destruct (getitem_int_last_two serie hoy manana) as [H2 H1].
  unfold obtener_temp_real, intento, sst_max_at. rewrite Hget.
  cbn -[getitem_str getitem_int]. rewrite Hjson.
  cbn -[getitem_str getitem_int]. rewrite Hdaily.
  cbn -[getitem_str getitem_int]. rewrite Hsst.
  cbn -[getitem_str getitem_int]. rewrite H2.
  cbn -[getitem_str getitem_int]. rewrite H1. reflexivity.
Qed.

(** * Further properties of the code *)

Import AquaDataScript.

(** ** The classifier, status by status *)

(** Each risk status is returned exactly on its own region: cold outside
    [24, 30]; stressed for a temperature in range and a pH outside
    [7.5, 8.5]; suffocating for temperature and pH in range and oxygen
    below 4. *)
Theorem obtener_estado_camaron_regions (temp ph oxigeno : Q) :
  let codigo := estado_codigo (obtener_estado_camaron temp ph oxigeno) in
  (codigo = "cold"%string <-> temp < 24 \/ 30 < temp)
  /\ (codigo = "stressed"%string
      <-> 24 <= temp <= 30 /\ (ph < 7.5 \/ 8.5 < ph))
  /\ (codigo = "suffocating"%string
      <-> 24 <= temp <= 30 /\ 7.5 <= ph <= 8.5 /\ oxigeno < 4).
Proof.
  cbv zeta. unfold obtener_estado_camaron.
  cases_on_comparisons; cbn [estado_codigo];
    repeat apply conj; intros Hyp; try discriminate Hyp;
    try reflexivity; lra.
Qed.

Lemma obtener_estado_camaron_regions_witness :
  24 <= 27 <= 30 /\ 7.5 <= 8.0 <= 8.5 /\ 3.5 < 4.
Proof.
  apply (proj2 (proj2 (obtener_estado_camaron_regions 27 8.0 3.5))).
  reflexivity.
Defined.

(** ** The continuous model beyond its bounds *)
















(** ** The stepped model beyond its three rates *)

(** [calculos] never raises; its record is built from the rate of the zone
    the temperature falls in. *)
Lemma calculos_eq (temp_agua biomasa_kg precio_saco : Q) :
  exists l,
    calculos temp_agua biomasa_kg precio_saco = inr l
    /\ alimento_necesario_kg l = biomasa_kg * tasa l
    /\ sacos_necesarios l = biomasa_kg * tasa l / 25
    /\ costo_dia l = biomasa_kg * tasa l / 25 * precio_saco
    /\ gasto_ciego l = biomasa_kg * 0.03 / 25 * precio_saco
    /\ ahorro l = gasto_ciego l - costo_dia l
    /\ ((26 < temp_agua /\ tasa l = 0.03)
        \/ (24 <= temp_agua <= 26 /\ tasa l = 0.02)
        \/ (temp_agua < 24 /\ tasa l = 0.005)).
Proof.
  unfold calculos. cases_on_comparisons;
    (eexists; split; [reflexivity |]; cbn;
     repeat apply conj; try reflexivity);
    first [ left; split; [lra | reflexivity]
          | right; left; split; [lra | reflexivity]
          | right; right; split; [lra | reflexivity] ].
Qed.

(** The stepped rate never decreases when the water gets warmer. *)
Theorem calculos_rate_monotone
  (t1 t2 biomasa_kg precio_saco : Q) (l1 l2 : locals) :
  calculos t1 biomasa_kg precio_saco = inr l1 ->
  calculos t2 biomasa_kg precio_saco = inr l2 ->
  t1 <= t2 ->
  tasa l1 <= tasa l2.
Proof.
  intros H1 H2 Hle.
  destruct (calculos_eq t1 biomasa_kg precio_saco) as (l1' & E1 & _ & _ & _ & _ & _ & Z1).
  destruct (calculos_eq t2 biomasa_kg precio_saco) as (l2' & E2 & _ & _ & _ & _ & _ & Z2).
  rewrite H1 in E1. rewrite H2 in E2.
  injection E1 as <-. injection E2 as <-.
  destruct Z1 as [[T1 ->] | [[T1 ->] | [T1 ->]]],
           Z2 as [[T2 ->] | [[T2 ->] | [T2 ->]]];
    try discriminate; lra.
Qed.

Lemma calculos_rate_monotone_witness :
  exists l1 l2,
    calculos 23 5000 25 = inr l1 /\ calculos 25 5000 25 = inr l2
    /\ tasa l1 <= tasa l2.
Proof.
  eexists _, _. split; [reflexivity |]. split; [reflexivity |].
  apply (calculos_rate_monotone 23 25 5000 25 _ _ eq_refl eq_refl).
  discriminate.
Defined.







(** ** The weather fetch: what its flag and its answers mean *)

Lemma obtener_temp_real_last_two_witness :
  obtener_temp_real (fun _ => ""%string) string
    (fun _ => inr "{}"%string)
    (fun _ => inr (VDict [("daily"%string,
                    VDict [("sst_max"%string,
                            VList [VFloat 25.4; VNone; VNone])])]))
    (-2.31) (-79.66)
  = inr (VNone, VNone, false).
Proof.
  eapply obtener_temp_real_last_two with (serie := [VFloat 25.4]);
    reflexivity.
Defined.

(** A successful [try] block always carries the flag [False]. *)
Lemma intento_flag
  (str : Q -> string) (Response : Type)
  (requests_get : string -> py Response) (json : Response -> py value)
  (lat lon : Q) (a b : value) (flag : bool) :
  intento str Response requests_get json lat lon = inr (a, b, flag) ->
  flag = false.
Proof.
  unfold intento.
  destruct (requests_get (URL str lat lon)) as [e | r];
    cbn -[sst_max_at]; [discriminate |].
  destruct (json r) as [e | respuesta]; cbn -[sst_max_at]; [discriminate |].
  destruct (sst_max_at respuesta (-2)); cbn -[sst_max_at]; [discriminate |].
  destruct (sst_max_at respuesta (-1)); cbn -[sst_max_at]; [discriminate |].
  intros [= _ _ <-]. reflexivity.
Qed.

(** The error flag tells the truth about the [try] block: it is [True] only
    when the block raised, and then the temperatures are the fallback pair;
    it is [False] only when the block ran to its end, and then the
    temperatures are the ones it read. *)
Theorem obtener_temp_real_flag
  (str : Q -> string) (Response : Type)
  (requests_get : string -> py Response) (json : Response -> py value)
  (lat lon : Q) (a b : value) (flag : bool) :
  obtener_temp_real str Response requests_get json lat lon
  = inr (a, b, flag) ->
  (flag = true ->
   a = VFloat 26.0 /\ b = VFloat 26.5
   /\ exists e, intento str Response requests_get json lat lon = inl e)
  /\ (flag = false ->
      intento str Response requests_get json lat lon = inr (a, b, false)).
Proof.
  unfold obtener_temp_real.
  destruct (intento str Response requests_get json lat lon)
    as [e | [[x y] f]] eqn:E; cbn.
  - intros [= <- <- <-]. split; [| discriminate].
    intros _. repeat split. exists e. reflexivity.
  - intros [= <- <- <-]. apply intento_flag in E. subst f.
    split; [discriminate | reflexivity].
Qed.

Lemma obtener_temp_real_flag_witness :
  VFloat 26.0 = VFloat 26.0 /\ VFloat 26.5 = VFloat 26.5
  /\ exists e,
       intento (fun _ => ""%string) string
         (fun _ => inl ConnectionError) (fun _ => inl JSONDecodeError)
         (-2.68) (-80.00) = inl e.
Proof.
  apply (proj1 (obtener_temp_real_flag (fun _ => ""%string) string
                  (fun _ => inl ConnectionError) (fun _ => inl JSONDecodeError)
                  (-2.68) (-80.00) _ _ true eq_refl)).
  reflexivity.
Defined.

Lemma index_short (n : nat) : (n < 2)%nat -> index n (-2) = inl IndexError.
Proof.
  intros Hn. unfold index.
  destruct n as [| [| n]]; [reflexivity | reflexivity | lia].
Qed.

(** A series with fewer than two readings cannot be used: with an empty
    list, and also with a single reading (which has a last item but no item
    before it), the result is the fallback triple. *)
Theorem obtener_temp_real_short_series
  (str : Q -> string) (Response : Type)
  (requests_get : string -> py Response) (json : Response -> py value)
  (lat lon : Q) (r : Response)
  (respuesta daily : value) (serie : list value) :
  requests_get (URL str lat lon) = inr r ->
  json r = inr respuesta ->
  getitem_str respuesta "daily" = inr daily ->
  getitem_str daily "sst_max" = inr (VList serie) ->
  (List.length serie < 2)%nat ->
  obtener_temp_real str Response requests_get json lat lon
  = inr (VFloat 26.0, VFloat 26.5, true).
Proof.
  intros Hget Hjson Hdaily Hsst Hlen.
  unfold obtener_temp_real, intento, sst_max_at. rewrite Hget.
  cbn -[getitem_str getitem_int]. rewrite Hjson.
  cbn -[getitem_str getitem_int]. rewrite Hdaily.
  cbn -[getitem_str getitem_int]. rewrite Hsst.
  cbn -[getitem_str index]. rewrite (index_short _ Hlen). reflexivity.
Qed.

Lemma obtener_temp_real_short_series_witness :
  obtener_temp_real (fun _ => ""%string) string
    (fun _ => inr "{}"%string)
    (fun _ => inr (VDict [("daily"%string,
                    VDict [("sst_max"%string, VList [VFloat 25.9])])]))
    (-2.68) (-80.00)
  = inr (VFloat 26.0, VFloat 26.5, true).
Proof.
  eapply obtener_temp_real_short_series with (serie := [VFloat 25.9]);
    try reflexivity.
  apply le_n.
Defined.

(** An answer of the wrong shape gives the fallback triple: a document that
    is not an object, an object without the key ['daily'], or a ['daily']
    that is not an object or lacks the key ['sst_max']. *)
Theorem obtener_temp_real_wrong_shape
  (str : Q -> string) (Response : Type)
  (requests_get : string -> py Response) (json : Response -> py value)
  (lat lon : Q) (r : Response) (respuesta : value) :
  requests_get (URL str lat lon) = inr r ->
  json r = inr respuesta ->
  (forall items, respuesta <> VDict items)
  \/ (exists items,
        respuesta = VDict items
        /\ forall kv, In kv items -> fst kv <> "daily"%string)
  \/ (exists daily,
        getitem_str respuesta "daily" = inr daily
        /\ ((forall items, daily <> VDict items)
            \/ exists items,
                 daily = VDict items
                 /\ forall kv, In kv items -> fst kv <> "sst_max"%string)) ->
  obtener_temp_real str Response requests_get json lat lon
  = inr (VFloat 26.0, VFloat 26.5, true).
Proof.
  intros Hget Hjson Hshape.
  assert (forall (v : value) (k : string),
            (forall items, v <> VDict items)
            \/ (exists items,
                  v = VDict items /\ forall kv, In kv items -> fst kv <> k) ->
            exists e, getitem_str v k = inl e) as Hmiss.
  { intros v k [Hnot | (items & -> & Hkey)].
    - destruct v; try (eexists; reflexivity). now destruct (Hnot items).
    - cbn. destruct (find _ items) as [kv |] eqn:F; [| eexists; reflexivity].
      apply find_some in F. destruct F as [Hin Heq].
      apply String.eqb_eq in Heq. now destruct (Hkey kv Hin). }
  assert (exists e, sst_max_at respuesta (-2) = inl e) as [e He].
  { unfold sst_max_at.
    destruct Hshape as [H | [H | (daily & Hdaily & H)]].
    - destruct (Hmiss respuesta "daily"%string (or_introl H)) as [e ->].
      eexists. reflexivity.
    - destruct (Hmiss respuesta "daily"%string (or_intror H)) as [e ->].
      eexists. reflexivity.
    - rewrite Hdaily. cbn -[getitem_str getitem_int].
      destruct (Hmiss daily "sst_max"%string H) as [e ->].
      eexists. reflexivity. }
  unfold obtener_temp_real, intento. rewrite Hget.
  cbn -[sst_max_at]. rewrite Hjson. cbn -[sst_max_at]. rewrite He.
  reflexivity.
Qed.

Lemma obtener_temp_real_wrong_shape_witness :
  obtener_temp_real (fun _ => ""%string) string
    (fun _ => inr "{}"%string)
    (fun _ => inr (VDict [("error"%string, VBool true);
                          ("reason"%string, VStr "bad request")]))
    (-2.68) (-80.00)
  = inr (VFloat 26.0, VFloat 26.5, true).
Proof.
  eapply obtener_temp_real_wrong_shape.
  - reflexivity.
  - reflexivity.
  - right. left. eexists. split; [reflexivity |].
    intros kv [<- | [<- | []]]; discriminate.
Defined.

(** ** The script: how the fetch, the classifier and the ration compose *)

Section PipelineFacts.

Variables fmt1 fmt2 str : Q -> string.
Variable Response : Type.
Variable requests_get : string -> py Response.
Variable json : Response -> py value.

Let run := pipeline fmt1 fmt2 str Response requests_get json.
Let fetch := obtener_temp_real str Response requests_get json.

(** With the pH and the oxygen the script fixes, only the temperature rule
    of the classifier can fire. *)
Lemma obtener_estado_camaron_fixed_readings (temp : Q) :
  obtener_estado_camaron temp ph_actual ox_actual
  = if Py.ltb temp 24 || Py.gtb temp 30
    then ("cold", "#3b82f6", "🥶", "Temperatura Crítica", "Riesgo térmico")%string
    else ("healthy", "#10b981", "🦐", "Saludable", "Condiciones óptimas")%string.
Proof. reflexivity. Qed.


(** The record of a run, from the results of its four fallible steps. *)
Lemma pipeline_steps (sector_nombre : string) (biomasa precio : Q)
  (lat lon : Q) (hoy manana : value) (flag : bool) (t_hoy t_manana : Q) :
  coordenadas sector_nombre = inr (lat, lon) ->
  fetch lat lon = inr (hoy, manana, flag) ->
  as_number hoy = inr t_hoy ->
  as_number manana = inr t_manana ->
  run sector_nombre biomasa precio
  = inr {| temp_actual := t_hoy;
           temp_manana := t_manana;
           api_error := flag;
           estado_hoy := obtener_estado_camaron t_hoy ph_actual ox_actual;
           alimento_sugerido := biomasa * Spec.continuousRate t_hoy;
           ahorro_total :=
             (biomasa * 0.03 / 25) * precio
             - (biomasa * Spec.continuousRate t_hoy / 25) * precio;
           tasa_real := Spec.continuousRate t_hoy;
           alertas := alerta_sistema flag;
           panel :=
             panel_soluciones fmt1 fmt2
               (estado_codigo (obtener_estado_camaron t_hoy ph_actual ox_actual))
               (biomasa * Spec.continuousRate t_hoy)
               (Spec.continuousRate t_hoy);
           delta_temp := t_manana - t_hoy;
           desc_manana :=
             snd (obtener_estado_camaron t_manana ph_actual ox_actual);
           color_ahorro :=
             if Py.gtb ((biomasa * 0.03 / 25) * precio
                        - (biomasa * Spec.continuousRate t_hoy / 25) * precio) 0
             then "normal"%string else "off"%string |}.
Proof.
  intros Hc Hf Hh Hm. subst run fetch. unfold pipeline.
  rewrite Hc. cbn [bind Monad_py Monad_either fst snd]. rewrite Hf.
  cbn [bind Monad_py Monad_either]. rewrite Hh.
  cbn [bind Monad_py Monad_either].
  rewrite (calcular_ahorro_eq t_hoy biomasa precio). cbv zeta.
  cbn [bind Monad_py Monad_either]. rewrite Hm.
  cbn [bind ret Monad_py Monad_either].
  destruct (obtener_estado_camaron t_manana ph_actual ox_actual)
    as [[[[c1 c2] c3] c4] c5].
  reflexivity.
Qed.

(** A run that ends went through its four steps. *)
Lemma pipeline_inv (sector_nombre : string) (biomasa precio : Q) (d : tablero) :
  run sector_nombre biomasa precio = inr d ->
  exists lat lon hoy manana,
    coordenadas sector_nombre = inr (lat, lon)
    /\ fetch lat lon = inr (hoy, manana, api_error d)
    /\ as_number hoy = inr (temp_actual d)
    /\ as_number manana = inr (temp_manana d).
Proof.
  intros Hrun.
  destruct (coordenadas sector_nombre) as [e | [lat lon]] eqn:Hc.
  { subst run. unfold pipeline in Hrun. rewrite Hc in Hrun. discriminate. }
  destruct (fetch lat lon) as [e | [[hoy manana] flag]] eqn:Hf.
  { subst run fetch. unfold pipeline in Hrun. rewrite Hc in Hrun.
    cbn [bind Monad_py Monad_either fst snd] in Hrun.
    rewrite Hf in Hrun. discriminate. }
  destruct (as_number hoy) as [e | t_hoy] eqn:Hh.
  { subst run fetch. unfold pipeline in Hrun. rewrite Hc in Hrun.
    cbn [bind Monad_py Monad_either fst snd] in Hrun.
    rewrite Hf in Hrun. cbn [bind Monad_py Monad_either] in Hrun.
    rewrite Hh in Hrun. discriminate. }
  destruct (as_number manana) as [e | t_manana] eqn:Hm.
  { subst run fetch. unfold pipeline in Hrun. rewrite Hc in Hrun.
    cbn [bind Monad_py Monad_either fst snd] in Hrun.
    rewrite Hf in Hrun. cbn [bind Monad_py Monad_either] in Hrun.
    rewrite Hh in Hrun. cbn [bind Monad_py Monad_either] in Hrun.
    rewrite (calcular_ahorro_eq t_hoy biomasa precio) in Hrun.
    cbv zeta in Hrun. cbn [bind Monad_py Monad_either] in Hrun.
    rewrite Hm in Hrun. discriminate. }
  rewrite (pipeline_steps _ _ _ _ _ _ _ _ _ _ Hc Hf Hh Hm) in Hrun.
  injection Hrun as <-. cbn.
  exists lat, lon, hoy, manana. repeat split; assumption.
Qed.

Lemma panel_soluciones_cold (alimento tasa : Q) :
  panel_soluciones fmt1 fmt2 "cold" alimento tasa
  = [ st_markdown "### 🛠️ Acciones Recomendadas";
      st_warning
        ("**Recomendación de Alimento:** Mantener **" ++ fmt1 alimento
         ++ " kg** (Tasa del **" ++ fmt2 (tasa * 100)
         ++ "%**) | **Acción:** Asegurar que el fondo de la piscina esté limpio para evitar problemas con el frío y airear de forma intermitente.")%string
        None ].
Proof. reflexivity. Qed.

Lemma panel_soluciones_healthy (alimento tasa : Q) :
  panel_soluciones fmt1 fmt2 "healthy" alimento tasa = [].
Proof. reflexivity. Qed.

End PipelineFacts.


Section PipelineProperties.

Variables fmt1 fmt2 str : Q -> string.
Variable Response : Type.
Variable requests_get : string -> py Response.
Variable json : Response -> py value.

Let run := pipeline fmt1 fmt2 str Response requests_get json.
Let fetch := obtener_temp_real str Response requests_get json.

(** Because the script fixes the pH at 7.8 and the oxygen at 5.2, a run
    can only report cold or healthy: the panel of actions is empty exactly
    when today's temperature is within [24, 30], otherwise it holds the
    heading and the feeding warning, and it never holds one of the two
    error boxes (hypoxia, pH). *)
Theorem pipeline_only_cold_or_healthy
  (sector_nombre : string) (biomasa precio : Q) (d : tablero) :
  run sector_nombre biomasa precio = inr d ->
  (estado_codigo (estado_hoy d) = "cold"%string
   \/ estado_codigo (estado_hoy d) = "healthy"%string)
  /\ (forall body, ~ In (st_error body) (panel d))
  /\ (panel d = [] <-> 24 <= temp_actual d <= 30)
  /\ (temp_actual d < 24 \/ 30 < temp_actual d ->
      exists body,
        panel d = [ st_markdown "### 🛠️ Acciones Recomendadas";
                    st_warning body None ]).
Proof.
  intros Hrun.
  destruct (pipeline_inv _ _ _ _ _ _ _ _ _ _ Hrun)
    as (lat & lon & hoy & manana & Hc & Hf & Hh & Hm).
  fold run in Hrun.
  subst run.
  rewrite (pipeline_steps _ _ _ _ _ _ _ _ _ _ _ _ _ _ _ _ Hc Hf Hh Hm) in Hrun.
  injection Hrun as <-. cbn [estado_hoy panel temp_actual].
  rewrite obtener_estado_camaron_fixed_readings.
  assert (Py.ltb (temp_actual d) 24 || Py.gtb (temp_actual d) 30 = true
          /\ (temp_actual d < 24 \/ 30 < temp_actual d)
          \/ Py.ltb (temp_actual d) 24 || Py.gtb (temp_actual d) 30 = false
             /\ 24 <= temp_actual d <= 30) as [[-> Hout] | [-> Hin]].
  { destruct (lt_spec (temp_actual d) 24), (gt_spec (temp_actual d) 30);
      cbn [orb]; [left | left | left | right]; split;
      try reflexivity; try (left; assumption); try (right; assumption).
    split; assumption. }
  - cbn [estado_codigo]. rewrite panel_soluciones_cold.
    repeat apply conj.
    + left. reflexivity.
    + intros body [Hw | [Hw | []]]; discriminate Hw.
    + intros Hw. discriminate Hw.
    + intros Hw. lra.
    + intros _. eexists. reflexivity.
  - cbn [estado_codigo]. rewrite panel_soluciones_healthy.
    repeat apply conj.
    + right. reflexivity.
    + intros body [].
    + intros _. exact Hin.
    + reflexivity.
    + intros Hw. lra.
Qed.





End PipelineProperties.

Lemma pipeline_only_cold_or_healthy_witness :
  exists d,
    pipeline (fun _ => ""%string) (fun _ => ""%string) (fun _ => ""%string)
      string (fun _ => inr "{}"%string)
      (fun _ => inr (VDict [("daily"%string,
                      VDict [("sst_max"%string,
                              VList [VFloat 23.1; VFloat 22.5; VFloat 23.0])])]))
      "Isla Puná (Golfo)" 5000 25 = inr d
    /\ estado_codigo (estado_hoy d) = "cold"%string
    /\ forall body, ~ In (st_error body) (panel d).
Proof.
  eexists. split; [reflexivity |]. split; [reflexivity |].
  lazymatch goal with
  | |- forall body, ~ In _ (panel ?d) =>
      apply (proj1 (proj2
        (pipeline_only_cold_or_healthy
           (fun _ => ""%string) (fun _ => ""%string) (fun _ => ""%string)
           string (fun _ => inr "{}"%string)
           (fun _ => inr (VDict [("daily"%string,
                           VDict [("sst_max"%string,
                                   VList [VFloat 23.1; VFloat 22.5;
                                          VFloat 23.0])])]))
           "Isla Puná (Golfo)" 5000 25 d eq_refl)))
  end.
Defined.





(** ** The classifier feeding the panel and the ration *)

(** Every status the classifier can return is one the panel of actions
    knows: healthy shows nothing; cold shows the heading and the feeding
    warning; suffocating and stressed show the heading and their own error
    box.  The panel is never a heading alone. *)
Theorem panel_soluciones_covers_every_status
  (fmt1 fmt2 : Q -> string) (temp ph oxigeno alimento tasa : Q) :
  let codigo := estado_codigo (obtener_estado_camaron temp ph oxigeno) in
  let p := panel_soluciones fmt1 fmt2 codigo alimento tasa in
  (codigo = "healthy"%string /\ p = [])
  \/ (codigo = "cold"%string
      /\ exists body,
           p = [ st_markdown "### 🛠️ Acciones Recomendadas"; st_warning body None ])
  \/ (codigo = "suffocating"%string
      /\ p = [ st_markdown "### 🛠️ Acciones Recomendadas";
               st_error "🚨 **PELIGRO CRÍTICO:** Encender todos los aireadores inmediatamente. Riesgo de mortalidad por Hipoxia. Revisar la biomasa." ])
  \/ (codigo = "stressed"%string
      /\ p = [ st_markdown "### 🛠️ Acciones Recomendadas";
               st_error "❌ **Alerta de pH:** Monitorear el pH cada 3 horas. Suspender cualquier tipo de fertilización o encalado hasta estabilizar el pH." ]).
Proof.
  cbv zeta. unfold obtener_estado_camaron.
  destruct (Py.ltb temp 24 || Py.gtb temp 30).
  { right. left. split; [reflexivity |]. eexists. reflexivity. }
  destruct (Py.ltb ph 7.5 || Py.gtb ph 8.5).
  { right. right. right. split; reflexivity. }
  destruct (Py.ltb oxigeno 4).
  { right. right. left. split; reflexivity. }
  left. split; reflexivity.
Qed.


